(** * Training statistics: distance, mean speed, calories and the report text

    A shallow embedding of [main.go].  The program computes, for a training
    of one of the kinds Running, Walking and Swimming, the distance covered,
    the mean speed and the calories spent, and prints them as a text of five
    lines.

    Numbers are modelled as the program has them:
    - [float64] is IEEE 754 binary64, given by the standard library's
      [spec_float] at precision 53 and maximal exponent 1024, every operation
      rounded to nearest, ties to even;
    - [int] and [time.Duration] are integers ([Z]); a [Duration] counts
      nanoseconds;
    - an untyped constant such as [1.79] is the binary64 value nearest to the
      exact decimal.

    Every floating-point operation is rounded on its own, as the compiler
    does on the default amd64 target (no fused multiply-add).

    Two functions of Go's own library are interfaces here, not definitions:
    [math.Pow] and the [%v] rendering of a [float64].  Every theorem below holds
    for all their implementations. *)

From Stdlib Require Import ZArith QArith Qabs Bool List String Ascii Lia.
From Stdlib Require Import DecimalString.
From Stdlib Require Import Floats.SpecFloat.
Import ListNotations.

Close Scope Q_scope.
Local Open Scope Z_scope.

(* ================================================================= *)
(** ** float64 *)

Declare Scope f64_scope.
Delimit Scope f64_scope with f64.

Module F64.

Definition prec : Z := 53.
Definition emax : Z := 1024.

Definition t : Type := spec_float.

Definition add : t -> t -> t := SFadd prec emax.
Definition mul : t -> t -> t := SFmul prec emax.
Definition div : t -> t -> t := SFdiv prec emax.

(** The comparison [x == y] of two floats: false as soon as one is NaN,
    true on two zeros of either sign. *)
Definition eqb : t -> t -> bool := SFeqb.

(** The conversion [float64(n)] of an integer. *)
Definition of_int (n : Z) : t := binary_normalize prec emax n 0 false.

(** The constant [n/d] (a decimal literal of the source) as a float64:
    [n] and [d] are small enough to be floats themselves, and the
    division rounds their exact quotient to nearest. *)
Definition const (n d : Z) : t := div (of_int n) (of_int d).

Definition zero : t := S754_zero false.
Definition NaN : t := S754_nan.
Definition Inf : t := S754_infinity false.

Definition is_zero (x : t) : bool :=
  match x with S754_zero _ => true | _ => false end.

(** Neither NaN nor an infinity. *)
Definition is_finite (x : t) : bool :=
  match x with
  | S754_zero _ | S754_finite _ _ _ => true
  | S754_infinity _ | S754_nan => false
  end.

(** The sign of a value: set on [-0], on a number below zero and on
    [-Inf]; NaN carries none. *)
Definition sign_set (x : t) : bool :=
  match x with
  | S754_zero s | S754_infinity s | S754_finite s _ _ => s
  | S754_nan => false
  end.

(** The comparison [x < y]: false as soon as one is NaN. *)
Definition ltb : t -> t -> bool := SFltb.

(** The exact value of a finite float, as a rational. *)
Definition to_Q (x : t) : Q :=
  match x with
  | S754_finite s m e =>
      ((if s then inject_Z (-1) else inject_Z 1) * inject_Z (Zpos m) * Qpower (inject_Z 2) e)%Q
  | _ => inject_Z 0
  end.

End F64.

(** [float64], the type of the program's numbers. *)
Definition float64 : Type := F64.t.
Infix "+" := F64.add : f64_scope.
Infix "*" := F64.mul : f64_scope.
Infix "/" := F64.div : f64_scope.
Infix "==" := F64.eqb (at level 70, no associativity) : f64_scope.

(* ================================================================= *)
(** ** Package time *)

Module time.

(** [type Duration int64], a count of nanoseconds. *)
Definition Duration : Type := Z.

Definition Nanosecond : Duration := 1.
Definition Microsecond : Duration := 1000 * Nanosecond.
Definition Millisecond : Duration := 1000 * Microsecond.
Definition Second : Duration := 1000 * Millisecond.
Definition Minute : Duration := 60 * Second.
Definition Hour : Duration := 60 * Minute.

(** [d.Hours()]: the whole hours plus the rest as a fraction.  Integer
    division and remainder truncate toward zero. *)
Definition Hours (d : Duration) : float64 :=
  let hour := Z.quot d Hour in
  let nsec := Z.rem d Hour in
  (F64.of_int hour + F64.of_int nsec / F64.of_int (60 * 60 * 10 ^ 9))%f64.

(** [d.Minutes()]. *)
Definition Minutes (d : Duration) : float64 :=
  let min := Z.quot d Minute in
  let nsec := Z.rem d Minute in
  (F64.of_int min + F64.of_int nsec / F64.of_int (60 * 10 ^ 9))%f64.

End time.

(* ================================================================= *)
(** ** Package math *)

Module math.

(** [math.Pow(x, y)], left abstract. *)
Class Lib : Type := { Pow : float64 -> float64 -> float64 }.

(** An implementation to run the program with: the rounded product
    [x * x], whatever [y] is.  The program raises to the power 2 only. *)
Definition squaring : Lib := {| Pow := fun x _ => (x * x)%f64 |}.

End math.

(* ================================================================= *)
(** ** Package fmt *)

Module fmt.

Local Open Scope string_scope.

(** The verb [%v] on a float64, left abstract. *)
Class Lib : Type := { FormatV : float64 -> string }.

(** The line feed, written [\n] in the source. *)
Definition nl : string := String "010"%char "".

(** [round_half_even n d] is the integer nearest to [n/d], the even one
    of the two when [n/d] lies half way, for [0 <= n] and [0 < d]. *)
Definition round_half_even (n d : Z) : Z :=
  let q := n / d in
  match 2 * (n mod d) ?= d with
  | Lt => q
  | Gt => q + 1
  | Eq => if Z.even q then q else q + 1
  end.

(** The value [m * 2^e] counted in hundredths, rounded to an integer. *)
Definition hundredths (m : positive) (e : Z) : Z :=
  match e with
  | Zneg p => round_half_even (100 * Zpos m) (2 ^ Zpos p)
  | _ => 100 * Zpos m * 2 ^ e
  end.

(** The character of a decimal digit [0 <= k <= 9]. *)
Definition digit (k : Z) : ascii := ascii_of_N (48 + Z.to_N k).

(** The decimal numeral of a natural number, without leading zeros. *)
Definition decimal (n : Z) : string :=
  NilZero.string_of_uint (N.to_uint (Z.to_N n)).

Definition sign (s : bool) : string := if s then "-" else "".

(** The verb [%.2f] on a float64: the exact value rounded to two
    decimals, ties to even; the sign is kept on a negative zero and on
    a negative value that rounds to zero; NaN and the infinities are
    spelled out. *)
Definition Fixed2 (x : float64) : string :=
  match x with
  | S754_nan => "NaN"
  | S754_infinity false => "+Inf"
  | S754_infinity true => "-Inf"
  | S754_zero s => sign s ++ "0.00"
  | S754_finite s m e =>
      let h := hundredths m e in
      sign s ++ decimal (h / 100) ++ "."
        ++ String (digit (h / 10 mod 10)) (String (digit (h mod 10)) "")
  end.

(** An implementation of [%v] to run the program with: an integral
    value is printed as its numeral, any other value as [%.2f] prints
    it.  It stands for [%v] on the durations of main only (30, 90 and
    225 minutes). *)
Definition integral : Lib :=
  {| FormatV := fun x =>
       match x with
       | S754_zero s => sign s ++ "0"
       | S754_finite s m (Zneg p) =>
           if Z.eqb (Zpos m mod 2 ^ Zpos p) 0
           then sign s ++ decimal (Zpos m / 2 ^ Zpos p)
           else Fixed2 x
       | S754_finite s m e => sign s ++ decimal (Zpos m * 2 ^ e)
       | _ => Fixed2 x
       end |}.

(** *** Recognising a numeral with two decimals *)

Definition is_digit (c : ascii) : bool :=
  let n := Z.of_N (N_of_ascii c) in Z.leb 48 n && Z.leb n 57.

(** Exactly: a point and two digits. *)
Definition point_two_digits (s : string) : bool :=
  match s with
  | String "." (String a (String b "")) => is_digit a && is_digit b
  | _ => false
  end.

(** One digit or more, then a point and two digits. *)
Fixpoint digits_point_two_digits (s : string) : bool :=
  match s with
  | "" => false
  | String c rest =>
      is_digit c && (point_two_digits rest || digits_point_two_digits rest)
  end.

(** An optional minus sign, one digit or more, a point, two digits. *)
Definition two_decimals (s : string) : bool :=
  match s with
  | String "-" rest => digits_point_two_digits rest
  | _ => digits_point_two_digits s
  end.

(** Digits only. *)
Fixpoint all_digits (s : string) : bool :=
  match s with
  | "" => true
  | String c rest => is_digit c && all_digits rest
  end.

(** How [%.2f] shows a value: as a numeral with two decimals when the
    value is finite, and by name when it is not. *)
Definition two_decimals_or_name (x : float64) : Prop :=
  if F64.is_finite x then two_decimals (Fixed2 x) = true
  else Fixed2 x = "NaN" \/ Fixed2 x = "+Inf" \/ Fixed2 x = "-Inf".

(** The number of line feeds of a text. *)
Fixpoint count_nl (s : string) : nat :=
  match s with
  | "" => O
  | String c rest =>
      if Ascii.eqb c "010"%char then S (count_nl rest) else count_nl rest
  end.

(** The text made of the given lines, each ended by a line feed. *)
Definition lines (ls : list string) : string :=
  fold_right (fun l rest => l ++ nl ++ rest) "" ls.

End fmt.

(* ================================================================= *)
(** ** The program: constants and data *)

Local Open Scope f64_scope.

(** Common constants. *)
Definition MInKm : float64 := F64.of_int 1000.
Definition MinInHours : float64 := F64.of_int 60.
Definition LenStep : float64 := F64.const 65 100.
Definition CmInM : float64 := F64.of_int 100.

(** Constants of the calories of a run. *)
Definition CaloriesMeanSpeedMultiplier : float64 := F64.of_int 18.
Definition CaloriesMeanSpeedShift : float64 := F64.const 179 100.

(** Constants of the calories of a walk. *)
Definition CaloriesWeightMultiplier : float64 := F64.const 35 1000.
Definition CaloriesSpeedHeightMultiplier : float64 := F64.const 29 1000.
Definition KmHInMsec : float64 := F64.const 278 1000.

(** Constants of the calories of a swim. *)
Definition SwimmingLenStep : float64 := F64.const 138 100.
Definition SwimmingCaloriesMeanSpeedShift : float64 := F64.const 11 10.
Definition SwimmingCaloriesWeightMultiplier : float64 := F64.of_int 2.

(** [type Training struct]: what every training has. *)
Module Training.
Record t : Type := Build
  { TrainingType : string;
    Action : Z;
    LenStep : float64;
    Duration : time.Duration;
    Weight : float64 }.
End Training.

(** [type InfoMessage struct]: a training and the three figures computed
    from it.  The embedded [Training] is the field [Training]. *)
Module InfoMessage.
Record t : Type := Build
  { Training : Training.t;
    Distance : float64;
    Speed : float64;
    Calories : float64 }.

(** The assignment [i.Calories = c] on a copy of [i]. *)
Definition set_Calories (i : t) (c : float64) : t :=
  {| Training := Training i; Distance := Distance i; Speed := Speed i;
     Calories := c |}.
End InfoMessage.

(** [type Running struct]. *)
Module Running.
Record t : Type := Build { Training : Training.t }.
End Running.

(** [type Walking struct]: a training and the height in centimetres. *)
Module Walking.
Record t : Type := Build { Training : Training.t; Height : float64 }.
End Walking.

(** [type Swimming struct]: a training, the length of the pool in metres
    and the number of lengths swum. *)
Module Swimming.
Record t : Type := Build
  { Training : Training.t; LengthPool : Z; CountPool : Z }.
End Swimming.

(* ================================================================= *)
(** ** The methods of Training *)

(** [func (t Training) distance() float64] *)
Definition Training_distance (t : Training.t) : float64 :=
  let distance := F64.of_int (Training.Action t) * Training.LenStep t / MInKm in
  distance.

(** [func (t Training) meanSpeed() float64] *)
Definition Training_meanSpeed (t : Training.t) : float64 :=
  let timeOfTrainingInHours := time.Hours (Training.Duration t) in
  if timeOfTrainingInHours == F64.zero then F64.zero
  else
    let meanSpeed := Training_distance t / timeOfTrainingInHours in
    meanSpeed.

(** [func (t Training) Calories() float64] *)
Definition Training_Calories (t : Training.t) : float64 := F64.zero.

(** [func (t Training) TrainingInfo() InfoMessage] *)
Definition Training_TrainingInfo (t : Training.t) : InfoMessage.t :=
  {| InfoMessage.Training := t;
     InfoMessage.Distance := Training_distance t;
     InfoMessage.Speed := Training_meanSpeed t;
     InfoMessage.Calories := Training_Calories t |}.

(** [func (i InfoMessage) String() string]: the format
    ["Тип тренировки: %s\nДлительность: %v мин\nДистанция: %.2f км.\nСр. скорость: %.2f км/ч\nПотрачено ккал: %.2f\n"]
    with its five operands put in, in order. *)
Definition InfoMessage_String `{fmt.Lib} (i : InfoMessage.t) : string :=
  ("Тип тренировки: " ++ Training.TrainingType (InfoMessage.Training i) ++ fmt.nl
   ++ "Длительность: "
   ++ fmt.FormatV (time.Minutes (Training.Duration (InfoMessage.Training i)))
   ++ " мин" ++ fmt.nl
   ++ "Дистанция: " ++ fmt.Fixed2 (InfoMessage.Distance i) ++ " км." ++ fmt.nl
   ++ "Ср. скорость: " ++ fmt.Fixed2 (InfoMessage.Speed i) ++ " км/ч" ++ fmt.nl
   ++ "Потрачено ккал: " ++ fmt.Fixed2 (InfoMessage.Calories i) ++ fmt.nl)%string.

(* ================================================================= *)
(** ** Running *)

(** [func (r Running) Calories() float64] *)
Definition Running_Calories (r : Running.t) : float64 :=
  let runnigMeanSpeed := Training_meanSpeed (Running.Training r) in
  let runningTimeInMinutes :=
    time.Hours (Training.Duration (Running.Training r)) * MinInHours in
  let runningMeanSpeedModifier :=
    CaloriesMeanSpeedMultiplier * runnigMeanSpeed + CaloriesMeanSpeedShift in
  let spentCaloriesWhileRunning :=
    runningMeanSpeedModifier * Training.Weight (Running.Training r) / MInKm
    * runningTimeInMinutes in
  spentCaloriesWhileRunning.

(** [func (r Running) TrainingInfo() InfoMessage] *)
Definition Running_TrainingInfo (r : Running.t) : InfoMessage.t :=
  {| InfoMessage.Training := Running.Training r;
     InfoMessage.Distance := Training_distance (Running.Training r);
     InfoMessage.Speed := Training_meanSpeed (Running.Training r);
     InfoMessage.Calories := Running_Calories r |}.

(* ================================================================= *)
(** ** Walking *)

(** [func (w Walking) Calories() float64] *)
Definition Walking_Calories `{math.Lib} (w : Walking.t) : float64 :=
  let walkingMeanSpeedInMetresPerSecond :=
    Training_meanSpeed (Walking.Training w) * KmHInMsec in
  let heightInMetres := Walking.Height w / CmInM in
  let trainingTimeInMinutes :=
    time.Hours (Training.Duration (Walking.Training w)) * MinInHours in
  let firstWeightModifier :=
    CaloriesWeightMultiplier * Training.Weight (Walking.Training w) in
  let secondWeightModifier :=
    CaloriesSpeedHeightMultiplier * Training.Weight (Walking.Training w) in
  let walkingSpeedModifier :=
    math.Pow walkingMeanSpeedInMetresPerSecond (F64.of_int 2) / heightInMetres in
  let spentCaloriesWhileWalking :=
    (firstWeightModifier + walkingSpeedModifier * secondWeightModifier)
    * trainingTimeInMinutes in
  spentCaloriesWhileWalking.

(** [func (w Walking) TrainingInfo() InfoMessage] *)
Definition Walking_TrainingInfo `{math.Lib} (w : Walking.t) : InfoMessage.t :=
  {| InfoMessage.Training := Walking.Training w;
     InfoMessage.Distance := Training_distance (Walking.Training w);
     InfoMessage.Speed := Training_meanSpeed (Walking.Training w);
     InfoMessage.Calories := Walking_Calories w |}.

(* ================================================================= *)
(** ** Swimming *)

(** [func (s Swimming) meanSpeed() float64] *)
Definition Swimming_meanSpeed (s : Swimming.t) : float64 :=
  let timeOfTrainingInHours := time.Hours (Training.Duration (Swimming.Training s)) in
  if timeOfTrainingInHours == F64.zero then F64.zero
  else
    let meanSpeed :=
      F64.of_int (Swimming.LengthPool s) * F64.of_int (Swimming.CountPool s)
      / MInKm / timeOfTrainingInHours in
    meanSpeed.

(** [func (s Swimming) Calories() float64] *)
Definition Swimming_Calories (s : Swimming.t) : float64 :=
  let swimmingMeanSpeed := Swimming_meanSpeed s in
  let trainingTime := time.Hours (Training.Duration (Swimming.Training s)) in
  let spentCaloriesWhileSwimming :=
    (swimmingMeanSpeed + SwimmingCaloriesMeanSpeedShift)
    * SwimmingCaloriesWeightMultiplier * Training.Weight (Swimming.Training s)
    * trainingTime in
  spentCaloriesWhileSwimming.

(** [func (s Swimming) TrainingInfo() InfoMessage] *)
Definition Swimming_TrainingInfo (s : Swimming.t) : InfoMessage.t :=
  {| InfoMessage.Training := Swimming.Training s;
     InfoMessage.Distance := Training_distance (Swimming.Training s);
     InfoMessage.Speed := Swimming_meanSpeed s;
     InfoMessage.Calories := Swimming_Calories s |}.

(* ================================================================= *)
(** ** The interface CaloriesCalculator and ReadData *)

(** [type CaloriesCalculator interface]: the two methods a training
    gives. *)
Class CaloriesCalculator (A : Type) : Type :=
  { Calories : A -> float64;
    TrainingInfo : A -> InfoMessage.t }.

#[export] Instance Training_CaloriesCalculator : CaloriesCalculator Training.t :=
  {| Calories := Training_Calories; TrainingInfo := Training_TrainingInfo |}.

#[export] Instance Running_CaloriesCalculator : CaloriesCalculator Running.t :=
  {| Calories := Running_Calories; TrainingInfo := Running_TrainingInfo |}.

#[export] Instance Walking_CaloriesCalculator `{math.Lib} : CaloriesCalculator Walking.t :=
  {| Calories := Walking_Calories; TrainingInfo := Walking_TrainingInfo |}.

#[export] Instance Swimming_CaloriesCalculator : CaloriesCalculator Swimming.t :=
  {| Calories := Swimming_Calories; TrainingInfo := Swimming_TrainingInfo |}.

(** [func ReadData(training CaloriesCalculator) string].  [fmt.Sprint] of
    an [InfoMessage] is its [String()]. *)
Definition ReadData `{fmt.Lib} {A : Type} `{CaloriesCalculator A} (training : A) : string :=
  let calories := Calories training in
  let info := TrainingInfo training in
  let info := InfoMessage.set_Calories info calories in
  InfoMessage_String info.

(* ================================================================= *)
(** ** The three trainings of main *)

Definition swimming : Swimming.t :=
  {| Swimming.Training :=
       {| Training.TrainingType := "Плавание";
          Training.Action := 2000;
          Training.LenStep := SwimmingLenStep;
          Training.Duration := (90 * time.Minute)%Z;
          Training.Weight := F64.of_int 85 |};
     Swimming.LengthPool := 50;
     Swimming.CountPool := 5 |}.

Definition walking : Walking.t :=
  {| Walking.Training :=
       {| Training.TrainingType := "Ходьба";
          Training.Action := 20000;
          Training.LenStep := LenStep;
          Training.Duration := (3 * time.Hour + 45 * time.Minute)%Z;
          Training.Weight := F64.of_int 85 |};
     Walking.Height := F64.of_int 185 |}.

Definition running : Running.t :=
  {| Running.Training :=
       {| Training.TrainingType := "Бег";
          Training.Action := 5000;
          Training.LenStep := LenStep;
          Training.Duration := (30 * time.Minute)%Z;
          Training.Weight := F64.of_int 85 |} |}.

(** A walk like the one of main by someone of height zero. *)
Definition walking_zero_height : Walking.t :=
  {| Walking.Training := Walking.Training walking;
     Walking.Height := F64.zero |}.

(** A training that lasts no time and has no repetition. *)
Definition training_zero : Training.t :=
  {| Training.TrainingType := "Бег";
     Training.Action := 0;
     Training.LenStep := LenStep;
     Training.Duration := 0;
     Training.Weight := F64.of_int 85 |}.

(** A training with no repetition and a step of infinite length. *)
Definition training_infinite_step : Training.t :=
  {| Training.TrainingType := "Бег";
     Training.Action := 0;
     Training.LenStep := F64.Inf;
     Training.Duration := (30 * time.Minute)%Z;
     Training.Weight := F64.of_int 85 |}.

(** What ReadData relies on for a training [x]: the summary already holds
    the calories of [x], so that writing them into it again changes nothing
    and the text is the one of the summary. *)
Definition ReadData_agrees `{fmt.Lib} {A : Type} `{CaloriesCalculator A} (x : A) : Prop :=
  InfoMessage.Calories (TrainingInfo x) = Calories x
  /\ InfoMessage.set_Calories (TrainingInfo x) (Calories x) = TrainingInfo x
  /\ ReadData x = InfoMessage_String (TrainingInfo x).

(** A run like the one of main whose type is written on two lines. *)
Definition running_two_line_type : Running.t :=
  {| Running.Training :=
       {| Training.TrainingType := ("Бег" ++ fmt.nl ++ "утром")%string;
          Training.Action := 5000;
          Training.LenStep := LenStep;
          Training.Duration := (30 * time.Minute)%Z;
          Training.Weight := F64.of_int 85 |} |}.

(** A run like the one of main by someone whose weight is NaN. *)
Definition training_nan_weight : Training.t :=
  {| Training.TrainingType := "Бег";
     Training.Action := 5000;
     Training.LenStep := LenStep;
     Training.Duration := (30 * time.Minute)%Z;
     Training.Weight := F64.NaN |}.

(** A training whose figures are not negative: the repetitions, the
    length of a step, the duration and the weight. *)
Definition Training_not_negative (t : Training.t) : Prop :=
  (0 <= Training.Action t)%Z
  /\ F64.sign_set (Training.LenStep t) = false
  /\ (0 <= Training.Duration t)%Z
  /\ F64.sign_set (Training.Weight t) = false.

(** A summary whose three figures carry no sign. *)
Definition InfoMessage_not_negative (i : InfoMessage.t) : Prop :=
  F64.sign_set (InfoMessage.Distance i) = false
  /\ F64.sign_set (InfoMessage.Speed i) = false
  /\ F64.sign_set (InfoMessage.Calories i) = false.

(* ================================================================= *)
(** ** Facts on float64 *)

Lemma eqb_zero_inv (x : float64) :
  (x == F64.zero) = true -> exists s, x = S754_zero s.
Proof.
  destruct x as [s | s | | s m e]; simpl; intros E.
  - now exists s.
  - destruct s; discriminate E.
  - discriminate E.
  - destruct s; discriminate E.
Qed.

Lemma eqb_zero_is_zero (x : float64) :
  (x == F64.zero) = F64.is_zero x.
Proof.
  destruct x as [s | s | | s m e]; simpl; try reflexivity; now destruct s.
Qed.

(** A product with a factor that is not finite is not finite. *)
Lemma mul_not_finite_l (x y : float64) :
  F64.is_finite x = false -> F64.is_finite (x * y) = false.
Proof.
  destruct x as [s | s | | s m e]; simpl; try discriminate; intros _;
    destruct y; reflexivity.
Qed.

(** A sum with a term that is not finite is not finite. *)
Lemma add_not_finite_r (x y : float64) :
  F64.is_finite y = false -> F64.is_finite (x + y) = false.
Proof.
  destruct y as [s | s | | s m e]; simpl; try discriminate; intros _;
    destruct x as [sx | sx | | sx mx ex]; try reflexivity;
    destruct sx, s; reflexivity.
Qed.

(** A quotient by a zero is not finite: NaN for a zero or a NaN above,
    an infinity for everything else. *)
Lemma div_by_zero (x : float64) (s : bool) :
  F64.is_finite (x / S754_zero s) = false
  /\ (F64.is_zero x = false -> x <> F64.NaN ->
      exists s', x / S754_zero s = S754_infinity s').
Proof.
  destruct x as [sx | sx | | sx mx ex]; simpl; split; try reflexivity;
    intros Hz Hn; try discriminate Hz; try (now elim Hn); eauto.
Qed.

(* ================================================================= *)
(** ** Mean speed *)

(** C1.  A training whose duration in hours compares equal to zero has
    mean speed zero, the positive zero that [return 0] gives: both by
    the [meanSpeed] of Training, which Running and Walking use, and by
    the [meanSpeed] of Swimming, whatever the pool.  Neither performs a
    division. *)
Theorem meanSpeed_zero_duration (t : Training.t) :
  (time.Hours (Training.Duration t) == F64.zero) = true ->
  Training_meanSpeed t = F64.zero
  /\ forall lengthPool countPool : Z,
       Swimming_meanSpeed (Swimming.Build t lengthPool countPool) = F64.zero.
Proof.
  intros H0; split.
  - unfold Training_meanSpeed. now rewrite H0.
  - intros lp cp. unfold Swimming_meanSpeed; simpl Swimming.Training. now rewrite H0.
Qed.

Lemma meanSpeed_zero_duration_witness :
  (time.Hours (Training.Duration training_zero) == F64.zero) = true
  /\ Training_meanSpeed training_zero = F64.zero
  /\ Swimming_meanSpeed (Swimming.Build training_zero 50 5) = F64.zero.
Proof.
  assert (H : (time.Hours (Training.Duration training_zero) == F64.zero) = true)
    by reflexivity.
  split; [exact H|].
  destruct (meanSpeed_zero_duration training_zero H) as [Hb Hs].
  split; [exact Hb | exact (Hs 50 5)].
Defined.

(** C4.  A swim whose duration in hours is not zero has mean speed
    [LengthPool * CountPool / 1000 / hours]; the number of strokes and the
    length of a stroke play no part in it. *)
Theorem Swimming_meanSpeed_formula (s : Swimming.t) :
  let duration_hours := time.Hours (Training.Duration (Swimming.Training s)) in
  (duration_hours == F64.zero) = false ->
  Swimming_meanSpeed s
  = F64.of_int (Swimming.LengthPool s) * F64.of_int (Swimming.CountPool s)
    / F64.of_int 1000 / duration_hours
  /\ forall (action : Z) (lenStep : float64),
       Swimming_meanSpeed
         (Swimming.Build
            (Training.Build (Training.TrainingType (Swimming.Training s)) action lenStep
               (Training.Duration (Swimming.Training s))
               (Training.Weight (Swimming.Training s)))
            (Swimming.LengthPool s) (Swimming.CountPool s))
       = Swimming_meanSpeed s.
Proof.
  intros h Hh; split.
  - unfold Swimming_meanSpeed. fold h. now rewrite Hh.
  - intros a l. reflexivity.
Qed.

Lemma Swimming_meanSpeed_formula_witness :
  (time.Hours (Training.Duration (Swimming.Training swimming)) == F64.zero) = false
  /\ Swimming_meanSpeed swimming
     = F64.of_int 50 * F64.of_int 5 / F64.of_int 1000
       / time.Hours (Training.Duration (Swimming.Training swimming)).
Proof.
  assert (H : (time.Hours (Training.Duration (Swimming.Training swimming)) == F64.zero)
              = false) by reflexivity.
  split; [exact H|].
  exact (proj1 (Swimming_meanSpeed_formula swimming H)).
Defined.

(* ================================================================= *)
(** ** Calories *)

(** C2.  The calories of a run are
    [(18 * mean_speed_kmh + 1.79) * weight_kg / 1000 * duration_min],
    with the mean speed of Training and the duration in hours times 60. *)
Theorem Running_Calories_formula (r : Running.t) :
  let mean_speed_kmh := Training_meanSpeed (Running.Training r) in
  let weight_kg := Training.Weight (Running.Training r) in
  let duration_hours := time.Hours (Training.Duration (Running.Training r)) in
  let duration_min := duration_hours * F64.of_int 60 in
  Running_Calories r
  = (F64.of_int 18 * mean_speed_kmh + F64.const 179 100) * weight_kg
    / F64.of_int 1000 * duration_min.
Proof.
  intros ms wt dh dm. unfold Running_Calories.
  fold ms wt dh. reflexivity.
Qed.

(** C3.  The calories of a walk by someone whose height is not zero are
    [(0.035 * weight_kg + (speed_ms^2 / height_m) * 0.029 * weight_kg)
     * duration_min], with [speed_ms = mean_speed * 0.278],
    [height_m = height_cm / 100] and [duration_min = duration_hours * 60];
    the square is [math.Pow] at 2, and the product [0.029 * weight_kg] is
    formed first, then multiplied by the quotient, as the source does. *)
Theorem Walking_Calories_formula `{math.Lib} (w : Walking.t) :
  (Walking.Height w == F64.zero) = false ->
  let weight_kg := Training.Weight (Walking.Training w) in
  let speed_ms := Training_meanSpeed (Walking.Training w) * F64.const 278 1000 in
  let height_m := Walking.Height w / F64.of_int 100 in
  let duration_min :=
    time.Hours (Training.Duration (Walking.Training w)) * F64.of_int 60 in
  Walking_Calories w
  = (F64.const 35 1000 * weight_kg
     + math.Pow speed_ms (F64.of_int 2) / height_m * (F64.const 29 1000 * weight_kg))
    * duration_min.
Proof.
  intros _ wt sp hm dm. unfold Walking_Calories.
  fold wt. reflexivity.
Qed.

Lemma Walking_Calories_formula_witness :
  (Walking.Height walking == F64.zero) = false
  /\ @Walking_Calories math.squaring walking
     = (F64.const 35 1000 * F64.of_int 85
        + @math.Pow math.squaring
            (Training_meanSpeed (Walking.Training walking) * F64.const 278 1000)
            (F64.of_int 2)
          / (F64.of_int 185 / F64.of_int 100) * (F64.const 29 1000 * F64.of_int 85))
       * (time.Hours (Training.Duration (Walking.Training walking)) * F64.of_int 60).
Proof.
  assert (H : (Walking.Height walking == F64.zero) = false) by reflexivity.
  split; [exact H|].
  exact (@Walking_Calories_formula math.squaring walking H).
Defined.

(** C5.  The calories of a swim are
    [(mean_speed + 1.1) * 2 * weight_kg * duration_hours], with the mean
    speed of Swimming, the one computed from the pool. *)
Theorem Swimming_Calories_formula (s : Swimming.t) :
  let weight_kg := Training.Weight (Swimming.Training s) in
  let duration_hours := time.Hours (Training.Duration (Swimming.Training s)) in
  Swimming_Calories s
  = (Swimming_meanSpeed s + F64.const 11 10) * F64.of_int 2 * weight_kg
    * duration_hours.
Proof.
  intros wt dh. unfold Swimming_Calories. fold wt dh. reflexivity.
Qed.

(* ================================================================= *)
(** ** Distance *)

Lemma of_int_1000 : exists m e, F64.of_int 1000 = S754_finite false m e.
Proof. vm_compute. eauto. Qed.

Lemma of_int_100 : exists m e, F64.of_int 100 = S754_finite false m e.
Proof. vm_compute. eauto. Qed.

(** The distance of a training without repetitions is a zero when the
    length of a step is finite. *)
Lemma distance_no_repetition (lenStep : float64) :
  F64.is_finite lenStep = true ->
  F64.is_zero (F64.of_int 0 * lenStep / F64.of_int 1000) = true.
Proof.
  destruct of_int_1000 as (m & e & ->).
  change (F64.of_int 0) with (S754_zero false).
  destruct lenStep as [s | s | | s m' e']; simpl; try discriminate; reflexivity.
Qed.

(** C6, as the program has it.  The [Distance] of the summary of a
    training of any kind, a swim included, is
    [repetitions * step_length_m / 1000]; for a swim the pool plays no
    part in it; and with no repetition it is zero, as long as the length of
    a step is finite. *)
Theorem Distance_formula `{math.Lib} (t : Training.t) :
  let d := F64.of_int (Training.Action t) * Training.LenStep t / F64.of_int 1000 in
  InfoMessage.Distance (Training_TrainingInfo t) = d
  /\ InfoMessage.Distance (Running_TrainingInfo (Running.Build t)) = d
  /\ (forall height : float64,
        InfoMessage.Distance (Walking_TrainingInfo (Walking.Build t height)) = d)
  /\ (forall lengthPool countPool : Z,
        InfoMessage.Distance
          (Swimming_TrainingInfo (Swimming.Build t lengthPool countPool)) = d)
  /\ (Training.Action t = 0%Z -> F64.is_finite (Training.LenStep t) = true ->
      (d == F64.zero) = true).
Proof.
  intros d. repeat split; try reflexivity.
  intros Ha Hf. subst d. rewrite Ha, eqb_zero_is_zero.
  now apply distance_no_repetition.
Qed.

Lemma Distance_formula_witness :
  Training.Action training_zero = 0%Z
  /\ F64.is_finite (Training.LenStep training_zero) = true
  /\ (InfoMessage.Distance
        (Swimming_TrainingInfo (Swimming.Build training_zero 50 5)) == F64.zero) = true.
Proof.
  assert (Ha : Training.Action training_zero = 0%Z) by reflexivity.
  assert (Hf : F64.is_finite (Training.LenStep training_zero) = true) by reflexivity.
  split; [exact Ha|]. split; [exact Hf|].
  destruct (@Distance_formula math.squaring training_zero) as (_ & _ & _ & Hs & Hz).
  rewrite (Hs 50%Z 5%Z). exact (Hz Ha Hf).
Defined.

(** C6, as stated, fails: with no repetition and an infinite step the
    distance is NaN, which is not zero. *)
Lemma Distance_no_repetition_infinite_step :
  Training.Action training_infinite_step = 0%Z
  /\ InfoMessage.Distance (Training_TrainingInfo training_infinite_step) = F64.NaN
  /\ (InfoMessage.Distance (Training_TrainingInfo training_infinite_step) == F64.zero)
     = false.
Proof. repeat split. Qed.

(* ================================================================= *)
(** ** The run of main *)

(** C7, as the program has it.  For the run of main (85 kg, 30 minutes,
    5000 steps of 0.65 m) the distance is 3.25 km, the mean speed is
    6.5 km/h, and the calories are [(18*6.5+1.79)*85/1000*30], a value
    within 0.01 of 302.91. *)
Theorem running_sample_figures :
  Training_distance (Running.Training running) = F64.const 325 100
  /\ Training_meanSpeed (Running.Training running) = F64.const 65 10
  /\ Running_Calories running
     = (F64.of_int 18 * F64.const 65 10 + F64.const 179 100) * F64.of_int 85
       / F64.of_int 1000 * F64.of_int 30
  /\ F64.is_finite (Running_Calories running) = true
  /\ (Qabs (F64.to_Q (Running_Calories running) - (30291 # 100)) <= 1 # 100)%Q.
Proof.
  repeat split; try (vm_compute; reflexivity).
  vm_compute. discriminate.
Qed.

(** C7, as stated, fails: the calories of that run are not within 0.01
    of 305.32. *)
Lemma running_sample_not_305_32 :
  ~ (Qabs (F64.to_Q (Running_Calories running) - (30532 # 100)) <= 1 # 100)%Q.
Proof.
  intros H. vm_compute in H. now apply H.
Qed.

(* ================================================================= *)
(** ** Walking with height zero *)

Lemma zero_height_in_metres (h : float64) :
  (h == F64.zero) = true -> exists s, h / CmInM = S754_zero s.
Proof.
  intros Hh. destruct (eqb_zero_inv h Hh) as [s ->].
  unfold CmInM. destruct of_int_100 as (m & e & ->). simpl. eauto.
Qed.

(** C8.  [Walking.Calories] divides by the height without looking at it.
    For a walk whose height is zero the height in metres is zero, the
    quotient of the squared speed by it is computed all the same and is not
    finite (an infinity when the squared speed is neither zero nor NaN, NaN
    otherwise), and so the calories returned are not finite: nothing is
    checked and nothing is refused. *)
Theorem Walking_Calories_zero_height `{math.Lib} (w : Walking.t) :
  (Walking.Height w == F64.zero) = true ->
  let weight_kg := Training.Weight (Walking.Training w) in
  let speed_ms := Training_meanSpeed (Walking.Training w) * KmHInMsec in
  let height_m := Walking.Height w / CmInM in
  let duration_min :=
    time.Hours (Training.Duration (Walking.Training w)) * MinInHours in
  let speed_sq := math.Pow speed_ms (F64.of_int 2) in
  F64.is_zero height_m = true
  /\ Walking_Calories w
     = (CaloriesWeightMultiplier * weight_kg
        + speed_sq / height_m * (CaloriesSpeedHeightMultiplier * weight_kg))
       * duration_min
  /\ F64.is_finite (speed_sq / height_m) = false
  /\ (F64.is_zero speed_sq = false -> speed_sq <> F64.NaN ->
      exists s, speed_sq / height_m = S754_infinity s)
  /\ F64.is_finite (Walking_Calories w) = false.
Proof.
  intros Hh wt sp hm dm sq.
  destruct (zero_height_in_metres _ Hh) as [s Hs].
  assert (Hq : F64.is_finite (sq / hm) = false).
  { subst hm. rewrite Hs. apply div_by_zero. }
  split; [subst hm; now rewrite Hs|].
  split; [reflexivity|].
  split; [exact Hq|].
  split.
  - subst hm. rewrite Hs. apply div_by_zero.
  - change (Walking_Calories w)
      with ((CaloriesWeightMultiplier * wt
             + sq / hm * (CaloriesSpeedHeightMultiplier * wt)) * dm).
    apply mul_not_finite_l, add_not_finite_r, mul_not_finite_l, Hq.
Qed.

Lemma Walking_Calories_zero_height_witness :
  (Walking.Height walking_zero_height == F64.zero) = true
  /\ F64.is_finite (@Walking_Calories math.squaring walking_zero_height) = false.
Proof.
  assert (Hh : (Walking.Height walking_zero_height == F64.zero) = true)
    by reflexivity.
  split; [exact Hh|].
  exact (proj2 (proj2 (proj2 (proj2
    (@Walking_Calories_zero_height math.squaring walking_zero_height Hh))))).
Defined.

(* ================================================================= *)
(** ** The text of a summary *)

Section Numerals.

Local Open Scope string_scope.
Local Open Scope Z_scope.

Lemma is_digit_digit (k : Z) :
  0 <= k < 10 -> fmt.is_digit (fmt.digit k) = true.
Proof.
  intros Hk.
  assert (Hc : k = 0 \/ k = 1 \/ k = 2 \/ k = 3 \/ k = 4 \/ k = 5 \/ k = 6
               \/ k = 7 \/ k = 8 \/ k = 9) by lia.
  repeat (destruct Hc as [-> | Hc]; [reflexivity|]). now subst k.
Qed.

Lemma string_of_uint_digits (u : Decimal.uint) :
  fmt.all_digits (NilEmpty.string_of_uint u) = true.
Proof. induction u; simpl; auto. Qed.

Lemma string_of_uint_not_empty (u : Decimal.uint) :
  NilZero.string_of_uint u <> "".
Proof. destruct u; discriminate. Qed.

Lemma decimal_digits (n : Z) :
  fmt.all_digits (fmt.decimal n) = true /\ fmt.decimal n <> "".
Proof.
  unfold fmt.decimal; split.
  - destruct (N.to_uint (Z.to_N n)); try reflexivity;
      exact (string_of_uint_digits _).
  - apply string_of_uint_not_empty.
Qed.

(** Digits, a point and two digits make a numeral with two decimals. *)
Lemma digits_then_fraction (ds : string) (a b : ascii) :
  fmt.all_digits ds = true -> ds <> "" ->
  fmt.is_digit a = true -> fmt.is_digit b = true ->
  fmt.digits_point_two_digits (ds ++ "." ++ String a (String b "")) = true.
Proof.
  intros Hd Hne Ha Hb. induction ds as [|c rest IH]; [now elim Hne|].
  simpl in Hd. apply andb_prop in Hd as [Hc Hrest].
  change ((String c rest) ++ "." ++ String a (String b ""))
    with (String c (rest ++ "." ++ String a (String b ""))).
  cbn [fmt.digits_point_two_digits]. rewrite Hc. cbn [andb].
  destruct rest as [|c' rest'].
  - simpl. now rewrite Ha, Hb.
  - rewrite IH by (assumption || discriminate). apply orb_true_r.
Qed.

Lemma two_decimals_unsigned (s : string) :
  fmt.digits_point_two_digits s = true -> fmt.two_decimals s = true.
Proof.
  destruct s as [|c rest]; [discriminate|].
  destruct c as [[] [] [] [] [] [] [] []]; try (intros H; exact H).
  discriminate.
Qed.

(** A finite value is shown by [%.2f] with exactly two decimals. *)
Lemma Fixed2_finite (x : float64) :
  F64.is_finite x = true -> fmt.two_decimals (fmt.Fixed2 x) = true.
Proof.
  destruct x as [s | s | | s m e]; try discriminate; intros _.
  - now destruct s.
  - unfold fmt.Fixed2. set (h := fmt.hundredths m e).
    assert (Hn : fmt.digits_point_two_digits
                   (fmt.decimal (h / 100) ++ "."
                    ++ String (fmt.digit (h / 10 mod 10))
                         (String (fmt.digit (h mod 10)) "")) = true).
    { destruct (decimal_digits (h / 100)) as [Hd Hne].
      apply digits_then_fraction; auto;
        apply is_digit_digit; apply Z.mod_pos_bound; lia. }
    destruct s; [exact Hn | now apply two_decimals_unsigned].
Qed.

Lemma Fixed2_shown (x : float64) : fmt.two_decimals_or_name x.
Proof.
  unfold fmt.two_decimals_or_name.
  destruct (F64.is_finite x) eqn:Hf; [now apply Fixed2_finite|].
  destruct x as [s | [] | | s m e]; try discriminate Hf; simpl; auto.
Qed.

Lemma lines_append_assoc (a b c : string) : (a ++ b) ++ c = a ++ b ++ c.
Proof. induction a as [|x a IH]; simpl; [reflexivity | now rewrite IH]. Qed.

End Numerals.

(* ================================================================= *)
(** ** ReadData *)

(** C10.  For a training of each of the four kinds the summary holds the
    calories that [Calories] returns, so the assignment in ReadData leaves
    the summary as it is, and ReadData returns the text of the summary. *)
Theorem ReadData_is_String_of_TrainingInfo `{fmt.Lib} `{math.Lib} :
  (forall t : Training.t, ReadData_agrees t)
  /\ (forall r : Running.t, ReadData_agrees r)
  /\ (forall w : Walking.t, ReadData_agrees w)
  /\ (forall s : Swimming.t, ReadData_agrees s).
Proof.
  (* each summary is built from the very calls ReadData makes *)
  repeat split.
Qed.

(** The text ReadData gives for the run of main, with the duration shown
    as an integer. *)
Example ReadData_running :
  @ReadData fmt.integral _ _ running
  = fmt.lines
      [ "Тип тренировки: Бег"; "Длительность: 30 мин"; "Дистанция: 3.25 км.";
        "Ср. скорость: 6.50 км/ч"; "Потрачено ккал: 302.91" ]%string.
Proof. vm_compute. reflexivity. Qed.

(* ================================================================= *)
(** ** Signs: what is computed from figures that are not negative *)

(** Rounding a magnitude under a clear sign gives a clear sign (or NaN). *)
Lemma round_aux_sign (mx ex : Z) (lx : location) :
  F64.sign_set (binary_round_aux F64.prec F64.emax false mx ex lx) = false.
Proof.
  unfold binary_round_aux.
  destruct (shr_fexp F64.prec F64.emax mx ex lx) as [mrs' e'].
  destruct (shr_fexp F64.prec F64.emax _ e' loc_Exact) as [mrs'' e''].
  destruct (shr_m mrs''); try reflexivity.
  now destruct (Z.leb _ _).
Qed.

Lemma round_sign (m : positive) (e : Z) :
  F64.sign_set (binary_round F64.prec F64.emax false m e) = false.
Proof.
  unfold binary_round.
  destruct (shl_align _ _ _) as [mz ez]. apply round_aux_sign.
Qed.

Lemma of_int_sign (n : Z) :
  (0 <= n)%Z -> F64.sign_set (F64.of_int n) = false.
Proof.
  destruct n as [|p|p]; intros Hn; [reflexivity | apply round_sign | lia].
Qed.

Lemma mul_sign (x y : float64) :
  F64.sign_set x = false -> F64.sign_set y = false ->
  F64.sign_set (x * y) = false.
Proof.
  destruct x as [sx | sx | | sx mx ex], y as [sy | sy | | sy my ey];
    simpl; intros Hx Hy; subst; try reflexivity.
  apply round_aux_sign.
Qed.

Lemma div_sign (x y : float64) :
  F64.sign_set x = false -> F64.sign_set y = false ->
  F64.sign_set (x / y) = false.
Proof.
  destruct x as [sx | sx | | sx mx ex], y as [sy | sy | | sy my ey];
    simpl; intros Hx Hy; subst; try reflexivity.
  unfold F64.div, SFdiv.
  destruct (SFdiv_core_binary _ _ _ _ _ _) as [[mz ez] lz].
  apply round_aux_sign.
Qed.

Lemma add_sign (x y : float64) :
  F64.sign_set x = false -> F64.sign_set y = false ->
  F64.sign_set (x + y) = false.
Proof.
  destruct x as [sx | sx | | sx mx ex], y as [sy | sy | | sy my ey];
    simpl; intros Hx Hy; subst; try reflexivity.
  apply round_sign.
Qed.

Lemma const_sign (n d : Z) :
  (0 <= n)%Z -> (0 <= d)%Z -> F64.sign_set (F64.const n d) = false.
Proof. intros Hn Hd. apply div_sign; now apply of_int_sign. Qed.

Lemma Hours_sign (d : time.Duration) :
  (0 <= d)%Z -> F64.sign_set (time.Hours d) = false.
Proof.
  intros Hd. unfold time.Hours.
  apply add_sign; [|apply div_sign]; apply of_int_sign.
  - apply Z.quot_pos; [exact Hd | now vm_compute].
  - apply Z.rem_nonneg; [discriminate | exact Hd].
  - now vm_compute.
Qed.

(** A value without sign is not below zero. *)
Lemma sign_clear_not_below_zero (x : float64) :
  F64.sign_set x = false -> F64.ltb x F64.zero = false.
Proof. destruct x as [s | s | | s m e]; simpl; intros H; subst; reflexivity. Qed.

Lemma distance_sign (t : Training.t) :
  (0 <= Training.Action t)%Z -> F64.sign_set (Training.LenStep t) = false ->
  F64.sign_set (Training_distance t) = false.
Proof.
  intros Ha Hl. unfold Training_distance.
  apply div_sign; [apply mul_sign; [now apply of_int_sign | exact Hl]|].
  now apply of_int_sign.
Qed.

Lemma meanSpeed_sign (t : Training.t) :
  Training_not_negative t -> F64.sign_set (Training_meanSpeed t) = false.
Proof.
  intros (Ha & Hl & Hd & _). unfold Training_meanSpeed.
  destruct (time.Hours (Training.Duration t) == F64.zero); [reflexivity|].
  apply div_sign; [now apply distance_sign | now apply Hours_sign].
Qed.

(** X1.  The summary of a plain training, and the one of a run, whose figures
    are not negative shows no negative figure: the distance, the mean
    speed and the calories carry no sign (each is [+0], above zero, [+Inf]
    or NaN), so none is below zero. *)
Theorem Running_TrainingInfo_not_negative (r : Running.t) :
  Training_not_negative (Running.Training r) ->
  InfoMessage_not_negative (Training_TrainingInfo (Running.Training r))
  /\ InfoMessage_not_negative (Running_TrainingInfo r)
  /\ F64.ltb (Running_Calories r) F64.zero = false.
Proof.
  intros Ht. pose proof Ht as (Ha & Hl & Hd & Hw).
  assert (Hc : F64.sign_set (Running_Calories r) = false).
  { unfold Running_Calories.
    apply mul_sign; [apply div_sign; [apply mul_sign; [apply add_sign|]|]|].
    - apply mul_sign; [now apply of_int_sign | now apply meanSpeed_sign].
    - now apply const_sign.
    - exact Hw.
    - now apply of_int_sign.
    - apply mul_sign; [now apply Hours_sign | now apply of_int_sign]. }
  repeat split; simpl;
    try (now apply distance_sign); try (now apply meanSpeed_sign); try exact Hc.
  now apply sign_clear_not_below_zero.
Qed.

Lemma Running_TrainingInfo_not_negative_witness :
  Training_not_negative (Running.Training running)
  /\ InfoMessage_not_negative (Running_TrainingInfo running).
Proof.
  assert (H : Training_not_negative (Running.Training running)).
  { repeat split; try reflexivity; now vm_compute. }
  split; [exact H|].
  exact (proj1 (proj2 (Running_TrainingInfo_not_negative running H))).
Defined.

(** X2.  The summary of a walk whose figures and height are not negative shows
    no negative figure, as long as [math.Pow] at 2 gives no negative
    square. *)
Theorem Walking_TrainingInfo_not_negative `{math.Lib} (w : Walking.t) :
  (forall x : float64, F64.sign_set (math.Pow x (F64.of_int 2)) = false) ->
  Training_not_negative (Walking.Training w) ->
  F64.sign_set (Walking.Height w) = false ->
  InfoMessage_not_negative (Walking_TrainingInfo w)
  /\ F64.ltb (Walking_Calories w) F64.zero = false.
Proof.
  intros Hp Ht Hh. pose proof Ht as (Ha & Hl & Hd & Hw).
  assert (Hc : F64.sign_set (Walking_Calories w) = false).
  { unfold Walking_Calories.
    apply mul_sign; [apply add_sign; [|apply mul_sign; [apply div_sign|]]|].
    - apply mul_sign; [now apply const_sign | exact Hw].
    - apply Hp.
    - apply div_sign; [exact Hh | now apply of_int_sign].
    - apply mul_sign; [now apply const_sign | exact Hw].
    - apply mul_sign; [now apply Hours_sign | now apply of_int_sign]. }
  repeat split; simpl;
    try (now apply distance_sign); try (now apply meanSpeed_sign); try exact Hc.
  now apply sign_clear_not_below_zero.
Qed.

Lemma squaring_sign (x : float64) :
  F64.sign_set (@math.Pow math.squaring x (F64.of_int 2)) = false.
Proof.
  destruct x as [[] | [] | | [] m e]; try reflexivity; apply round_aux_sign.
Qed.

Lemma Walking_TrainingInfo_not_negative_witness :
  Training_not_negative (Walking.Training walking)
  /\ F64.sign_set (Walking.Height walking) = false
  /\ InfoMessage_not_negative (@Walking_TrainingInfo math.squaring walking).
Proof.
  assert (H : Training_not_negative (Walking.Training walking)).
  { repeat split; try reflexivity; now vm_compute. }
  assert (Hh : F64.sign_set (Walking.Height walking) = false) by reflexivity.
  split; [exact H|]. split; [exact Hh|].
  exact (proj1 (@Walking_TrainingInfo_not_negative math.squaring walking
                  squaring_sign H Hh)).
Defined.

(** X3.  The summary of a swim whose figures, pool length and number of lengths
    are not negative shows no negative figure. *)
Theorem Swimming_TrainingInfo_not_negative (s : Swimming.t) :
  Training_not_negative (Swimming.Training s) ->
  (0 <= Swimming.LengthPool s)%Z -> (0 <= Swimming.CountPool s)%Z ->
  InfoMessage_not_negative (Swimming_TrainingInfo s)
  /\ F64.ltb (Swimming_meanSpeed s) F64.zero = false
  /\ F64.ltb (Swimming_Calories s) F64.zero = false.
Proof.
  intros Ht Hlp Hcp. pose proof Ht as (Ha & Hl & Hd & Hw).
  assert (Hs : F64.sign_set (Swimming_meanSpeed s) = false).
  { unfold Swimming_meanSpeed.
    destruct (time.Hours (Training.Duration (Swimming.Training s)) == F64.zero);
      [reflexivity|].
    apply div_sign; [apply div_sign; [apply mul_sign|]|];
      try (now apply of_int_sign). now apply Hours_sign. }
  assert (Hc : F64.sign_set (Swimming_Calories s) = false).
  { unfold Swimming_Calories.
    apply mul_sign; [apply mul_sign; [apply mul_sign; [apply add_sign|]|]|].
    - exact Hs.
    - now apply const_sign.
    - now apply of_int_sign.
    - exact Hw.
    - now apply Hours_sign. }
  repeat split; simpl; try (now apply distance_sign); try exact Hs; try exact Hc;
    now apply sign_clear_not_below_zero.
Qed.

Lemma Swimming_TrainingInfo_not_negative_witness :
  Training_not_negative (Swimming.Training swimming)
  /\ (0 <= Swimming.LengthPool swimming)%Z
  /\ (0 <= Swimming.CountPool swimming)%Z
  /\ InfoMessage_not_negative (Swimming_TrainingInfo swimming).
Proof.
  assert (H : Training_not_negative (Swimming.Training swimming)).
  { repeat split; try reflexivity; now vm_compute. }
  assert (Hl : (0 <= Swimming.LengthPool swimming)%Z) by now vm_compute.
  assert (Hc : (0 <= Swimming.CountPool swimming)%Z) by now vm_compute.
  split; [exact H|]. split; [exact Hl|]. split; [exact Hc|].
  exact (proj1 (Swimming_TrainingInfo_not_negative swimming H Hl Hc)).
Defined.

(* ================================================================= *)
(** ** Calories of a training that lasts no time *)

(** A product by a zero is a zero when the other factor is finite, and
    NaN when it is not. *)
Lemma mul_by_zero (x z : float64) :
  F64.is_zero z = true ->
  if F64.is_finite x then F64.is_zero (x * z) = true else x * z = F64.NaN.
Proof.
  destruct z as [sz | sz | | sz mz ez]; try discriminate; intros _.
  destruct x as [sx | sx | | sx mx ex]; reflexivity.
Qed.

Lemma zero_hours_in_minutes (h : float64) :
  (h == F64.zero) = true -> F64.is_zero (h * MinInHours) = true.
Proof.
  intros Hh. destruct (eqb_zero_inv h Hh) as [s ->]. reflexivity.
Qed.

Lemma zero_hours_is_zero (h : float64) :
  (h == F64.zero) = true -> F64.is_zero h = true.
Proof. intros Hh. now rewrite <- eqb_zero_is_zero. Qed.

(** X4.  The calories of a run that lasts no time are zero when
    [1.79 * weight / 1000] is finite and NaN when it is not (a weight that
    is NaN or infinite, or so large that the product overflows): never a
    number other than zero. *)
Theorem Running_Calories_zero_duration (r : Running.t) :
  (time.Hours (Training.Duration (Running.Training r)) == F64.zero) = true ->
  if F64.is_finite
       (CaloriesMeanSpeedShift * Training.Weight (Running.Training r) / MInKm)
  then F64.is_zero (Running_Calories r) = true
  else Running_Calories r = F64.NaN.
Proof.
  intros Hh. unfold Running_Calories, Training_meanSpeed. rewrite Hh.
  change (CaloriesMeanSpeedMultiplier * F64.zero + CaloriesMeanSpeedShift)
    with CaloriesMeanSpeedShift.
  apply mul_by_zero. now apply zero_hours_in_minutes.
Qed.

Lemma Running_Calories_zero_duration_witness :
  (time.Hours (Training.Duration training_zero) == F64.zero) = true
  /\ F64.is_zero (Running_Calories (Running.Build training_zero)) = true.
Proof.
  assert (H : (time.Hours (Training.Duration training_zero) == F64.zero) = true)
    by reflexivity.
  split; [exact H|].
  exact (Running_Calories_zero_duration (Running.Build training_zero) H).
Defined.

(** X5.  The calories of a walk that lasts no time are zero when the factor
    [0.035 * weight + Pow(0, 2) / height_m * (0.029 * weight)] is finite
    and NaN when it is not: never a number other than zero. *)
Theorem Walking_Calories_zero_duration `{math.Lib} (w : Walking.t) :
  (time.Hours (Training.Duration (Walking.Training w)) == F64.zero) = true ->
  if F64.is_finite
       (CaloriesWeightMultiplier * Training.Weight (Walking.Training w)
        + math.Pow F64.zero (F64.of_int 2) / (Walking.Height w / CmInM)
          * (CaloriesSpeedHeightMultiplier * Training.Weight (Walking.Training w)))
  then F64.is_zero (Walking_Calories w) = true
  else Walking_Calories w = F64.NaN.
Proof.
  intros Hh. unfold Walking_Calories, Training_meanSpeed. rewrite Hh.
  change (F64.zero * KmHInMsec) with F64.zero.
  apply mul_by_zero. now apply zero_hours_in_minutes.
Qed.

Lemma Walking_Calories_zero_duration_witness :
  (time.Hours (Training.Duration training_zero) == F64.zero) = true
  /\ F64.is_zero
       (@Walking_Calories math.squaring (Walking.Build training_zero (F64.of_int 185)))
     = true.
Proof.
  assert (H : (time.Hours (Training.Duration training_zero) == F64.zero) = true)
    by reflexivity.
  split; [exact H|].
  exact (@Walking_Calories_zero_duration math.squaring
           (Walking.Build training_zero (F64.of_int 185)) H).
Defined.

(** X6.  The calories of a swim that lasts no time are zero when
    [1.1 * 2 * weight] is finite and NaN when it is not: never a number
    other than zero. *)
Theorem Swimming_Calories_zero_duration (s : Swimming.t) :
  (time.Hours (Training.Duration (Swimming.Training s)) == F64.zero) = true ->
  if F64.is_finite
       (SwimmingCaloriesMeanSpeedShift * SwimmingCaloriesWeightMultiplier
        * Training.Weight (Swimming.Training s))
  then F64.is_zero (Swimming_Calories s) = true
  else Swimming_Calories s = F64.NaN.
Proof.
  intros Hh. unfold Swimming_Calories, Swimming_meanSpeed. rewrite Hh.
  change (F64.zero + SwimmingCaloriesMeanSpeedShift)
    with SwimmingCaloriesMeanSpeedShift.
  apply mul_by_zero. now apply zero_hours_is_zero.
Qed.

Lemma Swimming_Calories_zero_duration_witness :
  (time.Hours (Training.Duration training_zero) == F64.zero) = true
  /\ F64.is_zero (Swimming_Calories (Swimming.Build training_zero 50 5)) = true.
Proof.
  assert (H : (time.Hours (Training.Duration training_zero) == F64.zero) = true)
    by reflexivity.
  split; [exact H|].
  exact (Swimming_Calories_zero_duration (Swimming.Build training_zero 50 5) H).
Defined.

(* ================================================================= *)
(** ** Calories of a weight that is NaN *)

Lemma mul_NaN_r (x : float64) : x * F64.NaN = F64.NaN.
Proof. now destruct x. Qed.

(** X7.  A weight that is NaN makes the calories of a run, of a walk and of a
    swim NaN, whatever the other figures are: nothing checks the weight. *)
Theorem Calories_NaN_weight `{math.Lib} (t : Training.t) :
  Training.Weight t = F64.NaN ->
  Running_Calories (Running.Build t) = F64.NaN
  /\ (forall height : float64,
        Walking_Calories (Walking.Build t height) = F64.NaN)
  /\ (forall lengthPool countPool : Z,
        Swimming_Calories (Swimming.Build t lengthPool countPool) = F64.NaN).
Proof.
  intros Hw. repeat split; intros.
  - unfold Running_Calories. cbn [Running.Training]. rewrite Hw.
    now rewrite mul_NaN_r.
  - unfold Walking_Calories. cbn [Walking.Training]. rewrite Hw.
    now rewrite !mul_NaN_r.
  - unfold Swimming_Calories. cbn [Swimming.Training]. rewrite Hw.
    now rewrite mul_NaN_r.
Qed.

Lemma Calories_NaN_weight_witness :
  Training.Weight training_nan_weight = F64.NaN
  /\ Running_Calories (Running.Build training_nan_weight) = F64.NaN.
Proof.
  assert (H : Training.Weight training_nan_weight = F64.NaN) by reflexivity.
  split; [exact H|].
  exact (proj1 (@Calories_NaN_weight math.squaring training_nan_weight H)).
Defined.

(* ================================================================= *)
(** ** The lines of the text *)

Section Lines.

Local Open Scope string_scope.
Local Open Scope nat_scope.

Lemma count_nl_app (a b : string) :
  fmt.count_nl (a ++ b) = fmt.count_nl a + fmt.count_nl b.
Proof.
  induction a as [|c a IH]; [reflexivity|].
  cbn [append fmt.count_nl]. destruct (Ascii.eqb c "010"); rewrite IH; reflexivity.
Qed.

Lemma all_digits_no_nl (s : string) :
  fmt.all_digits s = true -> fmt.count_nl s = 0.
Proof.
  induction s as [|c s IH]; [reflexivity|].
  cbn [fmt.all_digits fmt.count_nl]. intros H.
  apply andb_prop in H as [Hc Hs].
  destruct (Ascii.eqb c "010") eqn:E; [|now apply IH].
  apply Ascii.eqb_eq in E. subst c. discriminate Hc.
Qed.

(** [%.2f] prints no line feed. *)
Lemma Fixed2_no_nl (x : float64) : fmt.count_nl (fmt.Fixed2 x) = 0.
Proof.
  destruct x as [[] | [] | | s m e];
    [reflexivity | reflexivity | reflexivity | reflexivity | reflexivity |].
  unfold fmt.Fixed2. set (h := fmt.hundredths m e).
  rewrite !count_nl_app.
  replace (fmt.count_nl (fmt.sign s)) with 0 by now destruct s.
  rewrite (all_digits_no_nl (fmt.decimal _)) by apply decimal_digits.
  rewrite (all_digits_no_nl (String _ (String _ ""))); [reflexivity|].
  cbn [fmt.all_digits].
  rewrite !is_digit_digit by (apply Z.mod_pos_bound; lia). reflexivity.
Qed.

Lemma String_count_nl `{fmt.Lib} (i : InfoMessage.t) :
  fmt.count_nl (InfoMessage_String i)
  = 5 + fmt.count_nl (Training.TrainingType (InfoMessage.Training i))
    + fmt.count_nl
        (fmt.FormatV (time.Minutes (Training.Duration (InfoMessage.Training i)))).
Proof.
  unfold InfoMessage_String.
  rewrite !count_nl_app, !Fixed2_no_nl.
  generalize (fmt.count_nl (Training.TrainingType (InfoMessage.Training i))).
  generalize (fmt.count_nl
                (fmt.FormatV
                   (time.Minutes (Training.Duration (InfoMessage.Training i))))).
  intros b a. cbn [fmt.count_nl fmt.nl Ascii.eqb Bool.eqb]. lia.
Qed.

Lemma String_lines `{fmt.Lib} (i : InfoMessage.t) :
  InfoMessage_String i
  = fmt.lines
      [ "Тип тренировки: " ++ Training.TrainingType (InfoMessage.Training i);
        "Длительность: "
        ++ fmt.FormatV (time.Minutes (Training.Duration (InfoMessage.Training i)))
        ++ " мин";
        "Дистанция: " ++ fmt.Fixed2 (InfoMessage.Distance i) ++ " км.";
        "Ср. скорость: " ++ fmt.Fixed2 (InfoMessage.Speed i) ++ " км/ч";
        "Потрачено ккал: " ++ fmt.Fixed2 (InfoMessage.Calories i) ].
Proof.
  unfold InfoMessage_String, fmt.lines. cbn [fold_right].
  now rewrite !lines_append_assoc.
Qed.


(** X9.  ReadData, for a training of any type that has the two methods of the
    interface: the text takes the type, the duration, the distance and the
    mean speed from the summary that [TrainingInfo] returns, and the
    calories from what [Calories] returns, whatever the summary holds as
    calories; and it has the line feeds of a summary. *)
Theorem ReadData_shows_Calories `{fmt.Lib} {A : Type} `{CaloriesCalculator A} (x : A) :
  ReadData x
  = fmt.lines
      [ "Тип тренировки: "
        ++ Training.TrainingType (InfoMessage.Training (TrainingInfo x));
        "Длительность: "
        ++ fmt.FormatV
             (time.Minutes (Training.Duration (InfoMessage.Training (TrainingInfo x))))
        ++ " мин";
        "Дистанция: " ++ fmt.Fixed2 (InfoMessage.Distance (TrainingInfo x)) ++ " км.";
        "Ср. скорость: " ++ fmt.Fixed2 (InfoMessage.Speed (TrainingInfo x)) ++ " км/ч";
        "Потрачено ккал: " ++ fmt.Fixed2 (Calories x) ]
  /\ fmt.count_nl (ReadData x)
     = 5
       + fmt.count_nl (Training.TrainingType (InfoMessage.Training (TrainingInfo x)))
       + fmt.count_nl
           (fmt.FormatV
              (time.Minutes
                 (Training.Duration (InfoMessage.Training (TrainingInfo x))))).
Proof.
  unfold ReadData. split.
  - now rewrite String_lines.
  - now rewrite String_count_nl.
Qed.

(** X10.  A plain training, of no kind, spends no calories: its summary holds
    [+0] and the last line of its text reads 0.00, whatever its figures
    are. *)
Theorem Training_ReadData_no_calories `{fmt.Lib} (t : Training.t) :
  InfoMessage.Calories (Training_TrainingInfo t) = F64.zero
  /\ ReadData t
     = fmt.lines
         [ "Тип тренировки: " ++ Training.TrainingType t;
           "Длительность: "
           ++ fmt.FormatV (time.Minutes (Training.Duration t)) ++ " мин";
           "Дистанция: " ++ fmt.Fixed2 (Training_distance t) ++ " км.";
           "Ср. скорость: " ++ fmt.Fixed2 (Training_meanSpeed t) ++ " км/ч";
           "Потрачено ккал: 0.00" ].
Proof.
  split; [reflexivity|].
  unfold ReadData. now rewrite String_lines.
Qed.

End Lines.

(* ================================================================= *)
(** ** The five lines of a summary *)

(** C9, as the program has it.  The text of a summary is five items,
    each ended by a line feed, in this order: the type of the training,
    the duration in minutes as [%v] shows it, the distance, the mean speed,
    the calories.  Its line feeds are these five and those inside the type
    and inside the duration as shown; so when neither has one, no item has
    a line feed and the text is five lines exactly.  Each of the last three
    figures is shown with exactly two decimals when it is finite, and as
    NaN, +Inf or -Inf when it is not. *)
Theorem InfoMessage_String_five_lines `{fmt.Lib} (i : InfoMessage.t) :
  let type := Training.TrainingType (InfoMessage.Training i) in
  let minutes :=
    fmt.FormatV (time.Minutes (Training.Duration (InfoMessage.Training i))) in
  let items :=
    [ ("Тип тренировки: " ++ type)%string;
      ("Длительность: " ++ minutes ++ " мин")%string;
      ("Дистанция: " ++ fmt.Fixed2 (InfoMessage.Distance i) ++ " км.")%string;
      ("Ср. скорость: " ++ fmt.Fixed2 (InfoMessage.Speed i) ++ " км/ч")%string;
      ("Потрачено ккал: " ++ fmt.Fixed2 (InfoMessage.Calories i))%string ] in
  InfoMessage_String i = fmt.lines items
  /\ fmt.count_nl (InfoMessage_String i)
     = (5 + fmt.count_nl type + fmt.count_nl minutes)%nat
  /\ (fmt.count_nl type = 0%nat -> fmt.count_nl minutes = 0%nat ->
      Forall (fun item => fmt.count_nl item = 0%nat) items
      /\ fmt.count_nl (InfoMessage_String i) = 5%nat)
  /\ fmt.two_decimals_or_name (InfoMessage.Distance i)
  /\ fmt.two_decimals_or_name (InfoMessage.Speed i)
  /\ fmt.two_decimals_or_name (InfoMessage.Calories i).
Proof.
  intros type minutes items.
  split; [apply String_lines|].
  split; [apply String_count_nl|].
  split; [|repeat split; apply Fixed2_shown].
  intros Ht Hm. split.
  - subst items. repeat constructor;
      rewrite !count_nl_app, ?Fixed2_no_nl, ?Ht, ?Hm; reflexivity.
  - rewrite String_count_nl. fold type minutes. now rewrite Ht, Hm.
Qed.

Lemma InfoMessage_String_five_lines_witness :
  fmt.count_nl
    (Training.TrainingType (InfoMessage.Training (Running_TrainingInfo running)))
  = 0%nat
  /\ fmt.count_nl
       (@fmt.FormatV fmt.integral
          (time.Minutes
             (Training.Duration (InfoMessage.Training (Running_TrainingInfo running)))))
     = 0%nat
  /\ fmt.count_nl (@InfoMessage_String fmt.integral (Running_TrainingInfo running))
     = 5%nat.
Proof.
  assert (Ht : fmt.count_nl
                 (Training.TrainingType
                    (InfoMessage.Training (Running_TrainingInfo running))) = 0%nat)
    by reflexivity.
  assert (Hm : fmt.count_nl
                 (@fmt.FormatV fmt.integral
                    (time.Minutes
                       (Training.Duration
                          (InfoMessage.Training (Running_TrainingInfo running)))))
               = 0%nat) by (vm_compute; reflexivity).
  split; [exact Ht|]. split; [exact Hm|].
  exact (proj2 (proj1 (proj2 (proj2
    (@InfoMessage_String_five_lines fmt.integral (Running_TrainingInfo running))))
    Ht Hm)).
Defined.

(** C9, as stated, fails twice.  The summary of a run whose type is
    written on two lines has six line feeds, so six lines; and the summary
    of a walk by someone of height zero has calories that are not finite,
    shown as [+Inf], which has no decimals. *)
Lemma InfoMessage_String_six_lines_or_no_decimals :
  fmt.count_nl
    (@InfoMessage_String fmt.integral (Running_TrainingInfo running_two_line_type))
  = 6%nat
  /\ fmt.Fixed2
       (InfoMessage.Calories (@Walking_TrainingInfo math.squaring walking_zero_height))
     = "+Inf"%string
  /\ fmt.two_decimals
       (fmt.Fixed2
          (InfoMessage.Calories
             (@Walking_TrainingInfo math.squaring walking_zero_height)))
     = false.
Proof. repeat split; vm_compute; reflexivity. Qed.
